(** * x2md node-poc: the conversion service ([services/converter.js])

    A shallow embedding of [ConversionService] and a verification of the
    dispatcher ([convert]), the per-format routines and the Markdown
    table renderer ([jsonToMarkdownTable]).

    Conventions of the embedding
    - JavaScript strings and byte buffers are [string] (sequences of
      8-bit characters); [toLowerCase] is the ASCII lower-casing.
    - A JavaScript array is a [list] of slots, one per index below its
      [length]; a slot of a row holds a primitive value or nothing (a
      hole, as the spreadsheet reader leaves for an empty cell).
    - An [async] method that resolves is [Ok], one that rejects is
      [Throw]; a thrown value is an [Error] object with its [message].
    - The four third-party parsers are a record of functions ([libs]). *)

From Stdlib Require Import Ascii String DecimalString Arith Lia.
From Equations Require Import Equations.
From stdpp Require Import base option list strings gmap fin_maps.

Local Open Scope string_scope.
Local Open Scope list_scope.

(** ** Strings *)

Definition nl : string := String (ascii_of_nat 10) EmptyString.

Definition dot : ascii := ascii_of_nat 46.

(** [String.prototype.toLowerCase], on the ASCII range. *)
Definition lower_ascii (c : ascii) : ascii :=
  let n := nat_of_ascii c in
  if (Nat.leb 65 n && Nat.leb n 90)%bool then ascii_of_nat (n + 32) else c.

Fixpoint toLowerCase (s : string) : string :=
  match s with
  | EmptyString => EmptyString
  | String c r => String (lower_ascii c) (toLowerCase r)
  end.

(** [s.split(sep)] for a one-character separator: the pieces of [s]
    between the separators, in order.  The accumulator [cur] holds the
    piece being read. *)
Fixpoint split_from (sep : ascii) (cur : string) (s : string) : list string :=
  match s with
  | EmptyString => [cur]
  | String c r =>
      if Ascii.eqb c sep then cur :: split_from sep EmptyString r
      else split_from sep (cur +:+ String c EmptyString) r
  end.

Definition split (s : string) (sep : ascii) : list string :=
  split_from sep EmptyString s.

(** [Array.prototype.pop]: the last element, [undefined] on []. *)
Definition pop {A} (a : list A) : option A := last a.

(** ** Outcomes of the asynchronous methods *)

(** A thrown [Error] object. *)
Record Error : Type := mkError { message : string }.

Inductive result (A : Type) : Type :=
| Ok (a : A)
| Throw (e : Error).
Arguments Ok {A} a.
Arguments Throw {A} e.

(** [try { body } catch (error) { handler(error) }] *)
Definition try_catch {A} (body : result A) (handler : Error -> result A)
  : result A :=
  match body with
  | Ok a => Ok a
  | Throw error => handler error
  end.

(** The conversion routines of the service; a run of [convert] records
    the routines it enters. *)
Inductive routine : Type :=
| ConvertDocx
| ConvertPdf
| ConvertXlsx
| ConvertCsv.

Definition traced (A : Type) : Type := (list routine * result A)%type.

Definition buffer : Type := string.

(** ** Cell values *)

Section Converter.

(** IEEE doubles are kept abstract together with their [ToString]. *)
Context {number : Type} (Number_toString : number -> string).

(** What a row holds at an index: a hole ([CHole], an index without
    an element) or a primitive value. *)
Inductive cell : Type :=
| CHole
| CUndefined
| CNull
| CBool (b : bool)
| CNum (n : number)
| CStr (s : string).

(** Abstract operation [ToString]; a hole reads as [undefined]. *)
Definition ToString (v : cell) : string :=
  match v with
  | CHole => "undefined"
  | CUndefined => "undefined"
  | CNull => "null"
  | CBool true => "true"
  | CBool false => "false"
  | CNum n => Number_toString n
  | CStr s => s
  end.

(** The text [Array.prototype.join] contributes for one index: a
    hole, [undefined] and [null] give the empty string. *)
Definition join_text (v : cell) : string :=
  match v with
  | CHole | CUndefined | CNull => ""
  | _ => ToString v
  end.

(** [a.join(sep)], as the loop of the language definition: [R] grows
    from left to right, the separator goes before every element but
    the first. *)
Fixpoint join_loop (sep : string) (first : bool) (R : string)
    (a : list cell) : string :=
  match a with
  | [] => R
  | e :: rest =>
      let S := if first then R else R +:+ sep in
      join_loop sep false (S +:+ join_text e) rest
  end.

Definition join (a : list cell) (sep : string) : string :=
  join_loop sep true "" a.

Definition row : Type := list cell.

(** [a.map(f)]: the callback is not called on a hole, and the result
    has a hole at the same index. *)
Definition array_map (f : cell -> cell) (a : row) : row :=
  map (fun c => match c with CHole => CHole | _ => f c end) a.

(** [[...a]]: the iterator reads a hole as [undefined], so the copy
    has no hole. *)
Definition spread (a : row) : row :=
  map (fun c => match c with CHole => CUndefined | _ => c end) a.

(** ** The table renderer *)

(** [while (paddedRow.length < header.length) paddedRow.push('')] *)
Equations? pad_while (paddedRow header : row) : row
  by wf (length header - length paddedRow) lt :=
  pad_while paddedRow header with lt_dec (length paddedRow) (length header) => {
    | left _ := pad_while (paddedRow ++ [CStr ""]) header;
    | right _ := paddedRow }.
Proof. rewrite length_app. simpl. lia. Qed.

(** The callback of [body.forEach]: one body row appended to [markdown]. *)
Definition render_body_row (header : row) (markdown : string) (r : row)
  : string :=
  let paddedRow := pad_while (spread r) header in
  markdown +:+ ("| " +:+ join paddedRow " | " +:+ " |" +:+ nl).

(** [jsonToMarkdownTable(rows)]; [None] is a null or undefined argument. *)
Definition jsonToMarkdownTable (rows : option (list row)) : string :=
  match rows with
  | None => ""
  | Some [] => ""
  | Some (header :: body) =>
      let markdown := "| " +:+ join header " | " +:+ " |" +:+ nl in
      let markdown :=
        markdown +:+
        ("| " +:+ join (array_map (fun _ => CStr "---") header) " | "
         +:+ " |" +:+ nl) in
      fold_left (render_body_row header) body markdown
  end.

(** ** The parsing libraries *)

(** Worksheets are opaque: only [sheet_to_json] looks inside one. *)
Context {sheet : Type}.

Record workbook : Type := mkWorkbook {
  SheetNames : list string;
  Sheets : gmap string sheet
}.

(** What the service requires at its head.  Each function is the
    library call on a buffer, resolving ([Ok]) or raising ([Throw]). *)
Record libs : Type := mkLibs {
  (** [(await mammoth.extractRawText({buffer})).value] *)
  mammoth_extractRawText : buffer -> result string;
  (** [(await pdf(buffer)).text] *)
  pdf : buffer -> result string;
  (** [xlsx.read(buffer, {type: 'buffer'})] *)
  xlsx_read : buffer -> result workbook;
  (** [xlsx.utils.sheet_to_json(sheet, {header: 1})]; the argument is
      [None] when the workbook has no sheet under the name. *)
  xlsx_utils_sheet_to_json : option sheet -> result (list row);
  (** [parse(buffer, {skip_empty_lines: true})] *)
  parse : buffer -> result (list row)
}.

Variable L : libs.

(** ** The conversion routines *)

Definition convertDocx (buffer : buffer) : traced string :=
  ([ConvertDocx],
   try_catch
     (mammoth_extractRawText L buffer)
     (fun error => Throw (mkError ("DOCX conversion failed: " +:+ message error)))).

Definition convertPdf (buffer : buffer) : traced string :=
  ([ConvertPdf],
   try_catch
     (pdf L buffer)
     (fun error => Throw (mkError ("PDF conversion failed: " +:+ message error)))).

(** [workbook.SheetNames.forEach(sheetName => ...)], with [markdown]
    the variable the callback appends to; an exception raised inside
    the callback leaves the loop. *)
Fixpoint forEach_sheet (workbook : workbook) (names : list string)
    (markdown : string) : result string :=
  match names with
  | [] => Ok markdown
  | sheetName :: rest =>
      let sheet := Sheets workbook !! sheetName in
      match xlsx_utils_sheet_to_json L sheet with
      | Throw e => Throw e
      | Ok json =>
          let markdown :=
            if Nat.ltb 0 (length json) then
              let markdown := markdown +:+ ("## Sheet: " +:+ sheetName +:+ nl +:+ nl) in
              let markdown := markdown +:+ jsonToMarkdownTable (Some json) in
              markdown +:+ (nl +:+ nl)
            else markdown in
          forEach_sheet workbook rest markdown
      end
  end.

Definition convertXlsx (buffer : buffer) : traced string :=
  ([ConvertXlsx],
   try_catch
     (match xlsx_read L buffer with
      | Throw e => Throw e
      | Ok workbook => forEach_sheet workbook (SheetNames workbook) ""
      end)
     (fun error => Throw (mkError ("XLSX conversion failed: " +:+ message error)))).

Definition convertCsv (buffer : buffer) : traced string :=
  ([ConvertCsv],
   try_catch
     (match parse L buffer with
      | Throw e => Throw e
      | Ok records => Ok (jsonToMarkdownTable (Some records))
      end)
     (fun error => Throw (mkError ("CSV conversion failed: " +:+ message error)))).

(** ** The dispatcher *)

(** [originalName.split('.').pop().toLowerCase()]; [None] is the
    [TypeError] of calling a method on [undefined]. *)
Definition extension_of (originalName : string) : option string :=
  match pop (split originalName dot) with
  | Some last => Some (toLowerCase last)
  | None => None
  end.

Definition convert (fileBuffer : buffer) (mimetype : string)
    (originalName : string) : traced string :=
  match extension_of originalName with
  | None =>
      ([], Throw (mkError
        "Cannot read properties of undefined (reading 'toLowerCase')"))
  | Some extension =>
      if String.eqb extension "docx" then convertDocx fileBuffer
      else if String.eqb extension "pdf" then convertPdf fileBuffer
      else if String.eqb extension "xlsx" then convertXlsx fileBuffer
      else if String.eqb extension "csv" then convertCsv fileBuffer
      else ([], Throw (mkError ("Unsupported file type: " +:+ extension)))
  end.

End Converter.

Arguments cell : clear implicits.
Arguments row : clear implicits.
Arguments workbook : clear implicits.
Arguments libs : clear implicits.

(** ** The table renderer on the heap

    [jsonToMarkdownTable] once more, with arrays as mutable objects in
    a store: [rows] is a reference to an array of references to row
    arrays, so a row may occur twice and the header may also be a body
    row.  [slice], [map] and the spread allocate; [push] updates in
    place. *)

Section Heap.

Context {number : Type} (Number_toString : number -> string).

Definition loc : Type := positive.

Inductive object : Type :=
| ORows (elems : list loc)
| OCells (elems : list (cell number)).

(** A computation on the store; [None] is a dangling or ill-typed
    reference, or a loop that used up its fuel. *)
Definition M (A : Type) : Type := gmap loc object -> option (A * gmap loc object).

#[local] Instance M_ret : MRet M := fun A (a : A) h => Some (a, h).

#[local] Instance M_bind : MBind M := fun A B (k : A -> M B) (m : M A) h =>
  match m h with
  | Some (a, h') => k a h'
  | None => None
  end.

Definition fail {A} : M A := fun _ => None.

Definition alloc (o : object) : M loc :=
  fun h => let l := fresh (dom h) in Some (l, <[l := o]> h).

Definition read_rows (l : loc) : M (list loc) :=
  fun h => match h !! l with
           | Some (ORows rs) => Some (rs, h)
           | _ => None
           end.

Definition read_cells (l : loc) : M (list (cell number)) :=
  fun h => match h !! l with
           | Some (OCells cs) => Some (cs, h)
           | _ => None
           end.

(** [a.push(c)] *)
Definition push (l : loc) (c : cell number) : M unit :=
  fun h => match h !! l with
           | Some (OCells cs) => Some (tt, <[l := OCells (cs ++ [c])]> h)
           | _ => None
           end.

(** [while (paddedRow.length < header.length) paddedRow.push('')];
    both lengths are read from the store at every test. *)
Fixpoint while_push (fuel : nat) (paddedRow header : loc) : M unit :=
  p ← read_cells paddedRow;
  hd ← read_cells header;
  if Nat.ltb (length p) (length hd) then
    match fuel with
    | O => fail
    | S fuel' =>
        push paddedRow (CStr "");;
        while_push fuel' paddedRow header
    end
  else mret tt.

(** [body.forEach(row => ...)] *)
Fixpoint forEach_body (header : loc) (body : list loc) (markdown : string)
  : M string :=
  match body with
  | [] => mret markdown
  | row :: rest =>
      r ← read_cells row;
      paddedRow ← alloc (OCells (spread r));
      hd ← read_cells header;
      while_push (length hd) paddedRow header;;
      p ← read_cells paddedRow;
      forEach_body header rest
        (markdown +:+ ("| " +:+ join Number_toString p " | " +:+ " |" +:+ nl))
  end.

Definition jsonToMarkdownTable_h (rows : option loc) : M string :=
  match rows with
  | None => mret ""
  | Some rows =>
      rs ← read_rows rows;
      match rs with
      | [] => mret ""
      | header :: _ =>
          body ← alloc (ORows (drop 1 rs));
          hd ← read_cells header;
          let markdown := "| " +:+ join Number_toString hd " | " +:+ " |" +:+ nl in
          dashes ← alloc (OCells (array_map (fun _ => CStr "---") hd));
          d ← read_cells dashes;
          let markdown :=
            markdown +:+ ("| " +:+ join Number_toString d " | " +:+ " |" +:+ nl) in
          b ← read_rows body;
          forEach_body header b markdown
      end
  end.

(** The rows a reference stands for in a store. *)
Definition cells_at (h : gmap loc object) (l : loc) : option (row number) :=
  match h !! l with
  | Some (OCells cs) => Some cs
  | _ => None
  end.

Definition rows_at (h : gmap loc object) (l : loc) : option (list (row number)) :=
  match h !! l with
  | Some (ORows rs) => mapM (cells_at h) rs
  | _ => None
  end.

End Heap.

Arguments object : clear implicits.

(** ** The upload endpoint ([POST /api/convert])

    The handler the server registers behind [upload.single('file')]:
    the middleware leaves [req.file] undefined when the form has no
    file field, and otherwise fills in its buffer, declared MIME type
    and original name. *)

Record upload : Type := mkUpload {
  file_buffer : buffer;
  file_mimetype : string;
  file_originalname : string
}.

(** The two JSON bodies the handler sends. *)
Inductive json_body : Type :=
| ErrorBody (error : string)
| MarkdownBody (markdown : string).

(** What a request leaves behind: the status and body sent, and the
    error written with [console.error], if any. *)
Record response : Type := mkResponse {
  status : nat;
  body : json_body;
  console_error : option Error
}.

(** ** The verification script ([verify_backend.js]) *)

(** The arguments of one [console.log] or [console.error] call. *)
Inductive console_line : Type :=
| ConsoleLog (text : string)
| ConsoleError (text : string)
| ConsoleErrorWith (text : string) (error : Error).

(** A run of the script: what it printed, and the code it passed to
    [process.exit] ([None] when it ran to its end). *)
Record script_run : Type := mkRun {
  console : list console_line;
  exit_code : option nat
}.

(** [s.includes(searchString)] *)
Fixpoint includes (s searchString : string) : bool :=
  String.prefix searchString s ||
  match s with
  | EmptyString => false
  | String _ r => includes r searchString
  end.

Section Callers.

Context {number : Type} (Number_toString : number -> string) {sheet : Type}.

Variable L : libs number sheet.

(** [app.post('/api/convert', upload.single('file'), async (req, res) => ...)];
    [res.json] without [res.status] answers 200. *)
Definition api_convert (file : option upload) : response :=
  match file with
  | None => mkResponse 400 (ErrorBody "No file uploaded") None
  | Some file =>
      match snd (convert Number_toString L (file_buffer file)
                   (file_mimetype file) (file_originalname file)) with
      | Ok markdown => mkResponse 200 (MarkdownBody markdown) None
      | Throw error => mkResponse 500 (ErrorBody (message error)) (Some error)
      end
  end.

(** [verify()]; [readFileSync] is the outcome of reading [test.csv]. *)
Definition verify (readFileSync : result buffer) : script_run :=
  match readFileSync with
  | Throw error =>
      mkRun [ConsoleErrorWith "Verification failed:" error] (Some 1)
  | Ok buffer =>
      match snd (convert Number_toString L buffer "text/csv" "test.csv") with
      | Throw error =>
          mkRun [ConsoleErrorWith "Verification failed:" error] (Some 1)
      | Ok markdown =>
          let console :=
            [ConsoleLog "--- CSV Conversion Result ---"; ConsoleLog markdown] in
          if includes markdown "| Name | Age | City |" &&
             includes markdown "| Alice | 30 | New York |"
          then mkRun (console ++ [ConsoleLog "SUCCESS: CSV conversion verified."])
                 None
          else mkRun (console ++
                      [ConsoleError "FAILURE: CSV conversion output incorrect."])
                 (Some 1)
      end
  end.

End Callers.

(** ** Specification vocabulary *)

(** One line of a pipe table, from the texts of its cells. *)
Definition table_line (cells : list string) : string :=
  "| " +:+ String.concat " | " cells +:+ " |" +:+ nl.

(** The cell texts of a body row under a header: the row's own texts,
    then empty texts up to the header's length. *)
Definition padded_texts {number} (Number_toString : number -> string)
    (header r : row number) : list string :=
  map (join_text Number_toString) r ++ replicate (length header - length r) "".

(** [has_dot s]: some character of [s] is a dot. *)
Fixpoint has_dot (s : string) : bool :=
  match s with
  | EmptyString => false
  | String c r => Ascii.eqb c dot || has_dot r
  end.

(** The text after the last dot of a file name; the whole name when
    it has no dot. *)
Fixpoint after_last_dot (s : string) : string :=
  match s with
  | EmptyString => EmptyString
  | String c r =>
      if has_dot r then after_last_dot r
      else if Ascii.eqb c dot then r
      else String c r
  end.

(** The extensions the dispatcher has a case for. *)
Definition known_extensions : list string := ["docx"; "pdf"; "xlsx"; "csv"].

(** The number of line feeds in a string. *)
Fixpoint count_nl (s : string) : nat :=
  match s with
  | EmptyString => 0
  | String c r => (if Ascii.eqb c (ascii_of_nat 10) then 1 else 0) + count_nl r
  end.

(** A cell that [join] renders as nothing: a hole, [undefined],
    [null] or the empty string. *)
Definition blank {number} (c : cell number) : bool :=
  match c with
  | CHole | CUndefined | CNull | CStr EmptyString => true
  | _ => false
  end.

(** [is_hole c]: the index holds no element. *)
Definition is_hole {number} (c : cell number) : bool :=
  match c with
  | CHole => true
  | _ => false
  end.

(** The cell texts of the separator line under a header: [---] where
    the header has an element, nothing where it has a hole. *)
Definition separator_texts {number} (header : row number) : list string :=
  map (fun c => if is_hole c then "" else "---") header.

Section Vocabulary.

Context {number : Type} (Number_toString : number -> string) {sheet : Type}.

(** The extension that selects a routine, and the label the routine
    puts in front of a parser's message. *)
Definition routine_extension (r : routine) : string :=
  match r with
  | ConvertDocx => "docx"
  | ConvertPdf => "pdf"
  | ConvertXlsx => "xlsx"
  | ConvertCsv => "csv"
  end.

Definition routine_label (r : routine) : string :=
  match r with
  | ConvertDocx => "DOCX"
  | ConvertPdf => "PDF"
  | ConvertXlsx => "XLSX"
  | ConvertCsv => "CSV"
  end.

(** [parser_raises L r buffer e]: run on [buffer], the parser behind
    routine [r] raises [e].  The spreadsheet reader is called once for
    the workbook and once per sheet, in the order of the sheet names;
    the call that raises is the first one that does. *)
Inductive parser_raises (L : libs number sheet)
  : routine -> buffer -> Error -> Prop :=
| docx_raises buffer e :
    mammoth_extractRawText L buffer = Throw e ->
    parser_raises L ConvertDocx buffer e
| pdf_raises buffer e :
    pdf L buffer = Throw e ->
    parser_raises L ConvertPdf buffer e
| xlsx_read_raises buffer e :
    xlsx_read L buffer = Throw e ->
    parser_raises L ConvertXlsx buffer e
| xlsx_sheet_raises buffer wb before sheetName after e :
    xlsx_read L buffer = Ok wb ->
    SheetNames wb = before ++ sheetName :: after ->
    Forall (fun n => exists json,
              xlsx_utils_sheet_to_json L (Sheets wb !! n) = Ok json) before ->
    xlsx_utils_sheet_to_json L (Sheets wb !! sheetName) = Throw e ->
    parser_raises L ConvertXlsx buffer e
| csv_raises buffer e :
    parse L buffer = Throw e ->
    parser_raises L ConvertCsv buffer e.

(** The number of line feeds inside the cell texts of a row. *)
Definition line_feeds_in (r : row number) : nat :=
  sum_list_with (fun c => count_nl (join_text Number_toString c)) r.

(** The text of a table, line by line: the header's cell texts, the
    separator, then every body row with its texts padded to the
    header's length. *)
Definition table_text (rows : list (row number)) : string :=
  match rows with
  | [] => ""
  | header :: body =>
      table_line (map (join_text Number_toString) header) +:+
      table_line (separator_texts header) +:+
      String.concat ""
        (map (fun r => table_line (padded_texts Number_toString header r)) body)
  end.


(** A store holds a table at [rows]: an array of references, each to
    an array of cells. *)
Definition holds_table (h : gmap loc (object number)) (rows : loc) : Prop :=
  exists rs, h !! rows = Some (ORows rs) /\
    Forall (fun r => exists cs : list (cell number), h !! r = Some (OCells cs)) rs.

End Vocabulary.

(** ** Sample libraries for the examples *)

Definition decimal (n : nat) : string :=
  NilEmpty.string_of_uint (Nat.to_uint n).

(** Modelled from the spec: the CSV parser collaborator (comma
    delimiter, one record per line, blank lines skipped), on input
    without quoted fields. *)
Definition csv_records (input : buffer) : list (row nat) :=
  map (fun line => map CStr (split line ","%char))
      (filter (fun line => line <> "") (split input (ascii_of_nat 10))).

(** A workbook of three sheets, the second without rows; a sheet is
    represented by its grid. *)
Definition sample_workbook : workbook (list (row nat)) := {|
  SheetNames := ["Sales"; "Empty"; "Totals"];
  Sheets := <["Sales" := [[CStr "Item"; CStr "Qty"]; [CStr "Pen"; CNum 3]]]>
            (<["Empty" := []]>
            (<["Totals" := [[CStr "Sum"]; [CNum 3; CUndefined]]]> ∅))
|}.

Definition sample_libs : libs nat (list (row nat)) := {|
  mammoth_extractRawText := fun b => Ok b;
  pdf := fun b => Ok b;
  xlsx_read := fun _ => Ok sample_workbook;
  xlsx_utils_sheet_to_json := fun s => Ok (default [] s);
  parse := fun b => Ok (csv_records b)
|}.

(** Libraries that reject every input. *)
Definition failing_libs : libs nat (list (row nat)) := {|
  mammoth_extractRawText := fun _ => Throw (mkError "Could not find file in options");
  pdf := fun _ => Throw (mkError "Invalid PDF structure");
  xlsx_read := fun _ => Throw (mkError "File is password-protected");
  xlsx_utils_sheet_to_json := fun _ => Throw (mkError "Bad range");
  parse := fun _ => Throw (mkError "Invalid Record Length")
|}.

(** The spreadsheet reader accepts the workbook, the sheet converter
    fails on the sheet that is missing from it. *)
Definition sheet_failing_libs : libs nat (list (row nat)) := {|
  mammoth_extractRawText := fun b => Ok b;
  pdf := fun b => Ok b;
  xlsx_read := fun _ => Ok {| SheetNames := ["Sales"; "Gone"; "Totals"];
                             Sheets := Sheets sample_workbook |};
  xlsx_utils_sheet_to_json := fun s =>
    match s with
    | Some json => Ok json
    | None => Throw (mkError "Bad range")
    end;
  parse := fun b => Ok (csv_records b)
|}.

(** A workbook whose first sheet has no rows and whose second sheet
    name has no sheet behind it. *)
Definition blank_workbook_libs : libs nat (list (row nat)) := {|
  mammoth_extractRawText := fun b => Ok b;
  pdf := fun b => Ok b;
  xlsx_read := fun _ => Ok {| SheetNames := ["Empty"; "Missing"];
                             Sheets := <["Empty" := []]> ∅ |};
  xlsx_utils_sheet_to_json := fun s => Ok (default [] s);
  parse := fun b => Ok (csv_records b)
|}.

(** A workbook as the reader returns it for a sheet whose second
    column is empty in the first row: the header row has a hole. *)
Definition sparse_workbook_libs : libs nat (list (row nat)) := {|
  mammoth_extractRawText := fun b => Ok b;
  pdf := fun b => Ok b;
  xlsx_read := fun _ =>
    Ok {| SheetNames := ["Data"; "Empty"];
          Sheets := <["Data" := [[CStr "a"; CHole; CStr "c"]; [CNum 1; CHole]]]>
                    (<["Empty" := []]> ∅) |};
  xlsx_utils_sheet_to_json := fun s => Ok (default [] s);
  parse := fun b => Ok (csv_records b)
|}.

(** A store where the header is also the first body row and the last
    row is shorter than the header. *)
Definition sample_heap : gmap loc (object nat) :=
  <[1%positive := ORows [2; 2; 3]%positive]>
  (<[2%positive := OCells [CStr "k"; CStr "v"]]>
  (<[3%positive := OCells [CNum 1]]> ∅)).

(** * Verification *)

(** ** Strings *)

Lemma append_nil_l (s : string) : "" +:+ s = s.
Proof. reflexivity. Qed.

Lemma append_cons (c : ascii) (s t : string) :
  String c s +:+ t = String c (s +:+ t).
Proof. reflexivity. Qed.

Lemma append_nil_r (s : string) : s +:+ "" = s.
Proof.
  induction s as [|c s IH]; [reflexivity|].
  now rewrite append_cons, IH.
Qed.

Lemma append_assoc (s1 s2 s3 : string) :
  (s1 +:+ s2) +:+ s3 = s1 +:+ (s2 +:+ s3).
Proof.
  induction s1 as [|c s1 IH]; [reflexivity|].
  now rewrite !append_cons, IH.
Qed.

Lemma concat_cons (x : string) (l : list string) :
  String.concat "" (x :: l) = x +:+ String.concat "" l.
Proof.
  destruct l as [|y l]; simpl; [now rewrite append_nil_r | reflexivity].
Qed.

Lemma concat_app (l1 l2 : list string) :
  String.concat "" (l1 ++ l2) = String.concat "" l1 +:+ String.concat "" l2.
Proof.
  induction l1 as [|x l1 IH]; [reflexivity|].
  rewrite <- app_comm_cons, !concat_cons, IH. now rewrite append_assoc.
Qed.

(** A piece without the separator is not split. *)
Lemma split_from_no_sep (s cur : string) :
  has_dot s = false -> split_from dot cur s = [cur +:+ s].
Proof.
  revert cur. induction s as [|c s IH]; intros cur H; simpl in *.
  - now rewrite append_nil_r.
  - apply orb_false_elim in H as [Hc Hs]. rewrite Hc, IH by assumption.
    now rewrite append_assoc.
Qed.

(** The last piece of a split only depends on what follows the last
    separator. *)
Lemma last_split_from (pre suf cur : string) :
  has_dot suf = false ->
  last (split_from dot cur (pre +:+ String dot suf)) = Some suf.
Proof.
  intros Hs. revert cur. induction pre as [|c pre IH]; intros cur.
  - rewrite append_nil_l. simpl. now rewrite split_from_no_sep.
  - rewrite append_cons. simpl. destruct (Ascii.eqb c dot).
    + rewrite last_cons, IH. reflexivity.
    + apply IH.
Qed.

Section Verification.

Context {number : Type} (Number_toString : number -> string) {sheet : Type}.

Abbreviation cell := (cell number).
Abbreviation row := (row number).
Abbreviation libs := (libs number sheet).
Abbreviation join_text := (join_text Number_toString).
Abbreviation join := (join Number_toString).
Abbreviation jsonToMarkdownTable := (jsonToMarkdownTable Number_toString).
Abbreviation convert := (convert Number_toString).
Abbreviation convertCsv := (convertCsv Number_toString).
Abbreviation convertXlsx := (convertXlsx Number_toString).
Abbreviation forEach_sheet := (forEach_sheet Number_toString).
Abbreviation padded_texts := (padded_texts Number_toString).
Abbreviation object := (object number).

(** ** [join] *)

Lemma join_loop_later (sep R : string) (a : list cell) :
  join_loop Number_toString sep false R a =
  R +:+ String.concat "" (map (fun e => sep +:+ join_text e) a).
Proof.
  revert R. induction a as [|e a IH]; intros R.
  - simpl. now rewrite append_nil_r.
  - cbn [join_loop map]. rewrite IH, concat_cons. now rewrite !append_assoc.
Qed.

Lemma concat_sep_cons (sep x : string) (l : list string) :
  String.concat sep (x :: l) =
  x +:+ String.concat "" (map (fun y => sep +:+ y) l).
Proof.
  revert x. induction l as [|y l IH]; intros x.
  - simpl. now rewrite append_nil_r.
  - change (String.concat sep (x :: y :: l))
      with (x +:+ sep +:+ String.concat sep (y :: l)).
    rewrite IH. cbn [map]. rewrite concat_cons. now rewrite append_assoc.
Qed.

Lemma join_concat (a : list cell) (sep : string) :
  join a sep = String.concat sep (map join_text a).
Proof.
  destruct a as [|e a]; [reflexivity|].
  unfold join. cbn [join_loop map]. rewrite join_loop_later, concat_sep_cons.
  rewrite append_nil_l, map_map. reflexivity.
Qed.

(** ** The padding loop *)

(** The loop stops, and what it leaves is the row followed by the
    missing number of empty strings. *)
Lemma pad_while_spec (paddedRow header : row) :
  pad_while paddedRow header =
  paddedRow ++ replicate (length header - length paddedRow) (CStr "").
Proof.
  remember (length header - length paddedRow) as n eqn:Hn.
  revert paddedRow Hn. induction n as [|n IH]; intros paddedRow Hn;
    simp pad_while;
    destruct (lt_dec (length paddedRow) (length header)) as [Hlt|Hge];
    cbn [pad_while_unfold_clause_1]; try lia.
  - cbn [replicate]. now rewrite app_nil_r.
  - rewrite IH by (rewrite length_app; cbn [length]; lia).
    cbn [replicate]. now rewrite <- app_assoc.
Qed.

Lemma length_spread (r : row) : length (spread r) = length r.
Proof. apply length_map. Qed.

Lemma spread_texts (r : row) : map join_text (spread r) = map join_text r.
Proof.
  unfold spread. rewrite map_map. apply map_ext. now intros [].
Qed.

Lemma pad_while_texts (header r : row) :
  map join_text (pad_while (spread r) header) = padded_texts header r.
Proof.
  rewrite pad_while_spec. unfold padded_texts.
  rewrite map_app, spread_texts, length_spread. f_equal.
  induction (length header - length r) as [|n IH]; [reflexivity|].
  cbn [replicate map]. now rewrite IH.
Qed.

(** ** The renderer *)

Lemma render_body_row_line (header : row) (markdown : string) (r : row) :
  render_body_row Number_toString header markdown r =
  markdown +:+ table_line (padded_texts header r).
Proof.
  unfold render_body_row, table_line.
  now rewrite join_concat, pad_while_texts.
Qed.

Lemma forEach_body_rows (header : row) (body : list row) (markdown : string) :
  fold_left (render_body_row Number_toString header) body markdown =
  markdown +:+
  String.concat "" (map (fun r => table_line (padded_texts header r)) body).
Proof.
  revert markdown. induction body as [|r body IH]; intros markdown.
  - simpl. now rewrite append_nil_r.
  - cbn [fold_left map]. rewrite IH, render_body_row_line, concat_cons.
    now rewrite append_assoc.
Qed.

Lemma dashes_texts (header : row) :
  map join_text (array_map (fun _ => CStr "---") header) =
  separator_texts header.
Proof.
  unfold array_map, separator_texts. rewrite map_map.
  apply map_ext. now intros [].
Qed.

Lemma separator_texts_dense (header : row) :
  Forall (fun c => is_hole c = false) header ->
  separator_texts header = replicate (length header) "---".
Proof.
  induction 1 as [|c header Hc _ IH]; [reflexivity|].
  cbn [separator_texts map length replicate]. rewrite Hc.
  now rewrite <- IH.
Qed.

(** The renderer's text, line by line. *)
Lemma table_lines (header : row) (body : list row) :
  jsonToMarkdownTable (Some (header :: body)) =
  table_line (map join_text header) +:+
  table_line (separator_texts header) +:+
  String.concat "" (map (fun r => table_line (padded_texts header r)) body).
Proof.
  unfold jsonToMarkdownTable. rewrite forEach_body_rows.
  rewrite !join_concat, dashes_texts. unfold table_line.
  now rewrite !append_assoc.
Qed.

Lemma render_table_text (rows : list row) :
  jsonToMarkdownTable (Some rows) = table_text Number_toString rows.
Proof. destruct rows as [|header body]; [reflexivity | apply table_lines]. Qed.

(** X20. For a non-empty sequence of rows the renderer returns the
    header line, then one separator line with as many cells as the
    header, then one line per body row in the original order.  The
    separator cell is [---] at every index where the header has an
    element and empty at a hole, so it is all [---] for a header
    without holes.  A body row shorter than the header is given empty
    cells up to exactly the header's length; a body row longer than the
    header keeps every cell and so has more cells than the header. *)
Theorem table_structure (header : row) (body : list row) :
  jsonToMarkdownTable (Some (header :: body)) =
    table_line (map join_text header) +:+
    table_line (separator_texts header) +:+
    String.concat "" (map (fun r => table_line (padded_texts header r)) body)
  /\ length (separator_texts header) = length header
  /\ (Forall (fun c => is_hole c = false) header ->
      separator_texts header = replicate (length header) "---")
  /\ Forall (fun r =>
       take (length r) (padded_texts header r) = map join_text r
       /\ (length r < length header ->
           length (padded_texts header r) = length header
           /\ drop (length r) (padded_texts header r) =
              replicate (length header - length r) "")
       /\ (length header < length r ->
           padded_texts header r = map join_text r
           /\ length header < length (padded_texts header r))) body.
Proof.
  split; [|split; [|split]].
  - apply table_lines.
  - apply length_map.
  - apply separator_texts_dense.
  - apply Forall_forall. intros r _. unfold padded_texts.
    assert (Hlen : length (map join_text r) = length r) by apply length_map.
    split; [|split].
    + rewrite <- Hlen. now rewrite take_app_length.
    + intros Hlt. split.
      * rewrite length_app, length_replicate, Hlen. lia.
      * rewrite <- Hlen at 1. now rewrite drop_app_length.
    + intros Hgt. replace (length header - length r) with 0 by lia.
      cbn [replicate]. rewrite app_nil_r. split; [reflexivity|].
      now rewrite Hlen.
Qed.

(** ** The dispatcher *)

Lemma extension_of_after_last_dot (pre suf : string) :
  has_dot suf = false ->
  extension_of (pre +:+ String dot suf) = Some (toLowerCase suf).
Proof.
  intros H. unfold extension_of, pop, split.
  now rewrite last_split_from.
Qed.

Lemma extension_of_no_dot (name : string) :
  has_dot name = false -> extension_of name = Some (toLowerCase name).
Proof.
  intros H. unfold extension_of, pop, split.
  now rewrite split_from_no_sep.
Qed.

Lemma after_last_dot_no_dot (name : string) :
  has_dot name = false -> after_last_dot name = name.
Proof.
  destruct name as [|c r]; [reflexivity|]. cbn [has_dot after_last_dot].
  intros [Hc Hr]%orb_false_elim. now rewrite Hr, Hc.
Qed.

Lemma after_last_dot_split (name : string) :
  has_dot name = true ->
  exists pre, name = pre +:+ String dot (after_last_dot name)
              /\ has_dot (after_last_dot name) = false.
Proof.
  induction name as [|c r IH]; [discriminate|].
  cbn [has_dot after_last_dot]. intros H.
  destruct (has_dot r) eqn:Hr.
  - destruct (IH eq_refl) as (pre & Hpre & Hsuf).
    exists (String c pre). rewrite append_cons. now rewrite <- Hpre.
  - rewrite orb_false_r in H. rewrite H. apply Ascii.eqb_eq in H as ->.
    exists "". split; [reflexivity | assumption].
Qed.

(** The extension the dispatcher computes is the lower-cased text
    after the last dot; in particular the computation never fails. *)
Lemma extension_of_spec (name : string) :
  extension_of name = Some (toLowerCase (after_last_dot name)).
Proof.
  destruct (has_dot name) eqn:Hd.
  - destruct (after_last_dot_split name Hd) as (pre & Hpre & Hsuf).
    rewrite Hpre at 1. now apply extension_of_after_last_dot.
  - rewrite after_last_dot_no_dot by assumption. now apply extension_of_no_dot.
Qed.

Lemma convert_unknown (L : libs) (fileBuffer : buffer) (mimetype name ext : string) :
  extension_of name = Some ext ->
  ext ∉ known_extensions ->
  convert L fileBuffer mimetype name =
    ([], Throw (mkError ("Unsupported file type: " +:+ ext))).
Proof.
  intros He Hk. unfold convert. rewrite He.
  repeat match goal with
  | |- context [String.eqb ext ?k] =>
      destruct (String.eqb_spec ext k) as [->|_];
      [exfalso; apply Hk; unfold known_extensions;
       repeat first [apply list_elem_of_here | apply list_elem_of_further]|]
  end.
  reflexivity.
Qed.

Lemma convert_csv (L : libs) (fileBuffer : buffer) (mimetype name : string) :
  toLowerCase (after_last_dot name) = "csv" ->
  convert L fileBuffer mimetype name = convertCsv L fileBuffer.
Proof. intros He. unfold convert. now rewrite extension_of_spec, He. Qed.

(** C2. On the CSV bytes of the example, which the parser reads as
    the two records [Name,Age,City] and [Alice,30,New York], and a
    file name whose extension is [csv], [convert] returns exactly the
    three table lines: cells joined by [" | "], every line between a
    leading [| ] and a trailing [ |]. *)
Theorem C2_csv_example (L : libs) (mimetype name : string) :
  let bytes := "Name,Age,City" +:+ nl +:+ "Alice,30,New York" +:+ nl in
  toLowerCase (after_last_dot name) = "csv" ->
  parse L bytes =
    Ok [[CStr "Name"; CStr "Age"; CStr "City"];
        [CStr "Alice"; CStr "30"; CStr "New York"]] ->
  convert L bytes mimetype name =
    ([ConvertCsv],
     Ok ("| Name | Age | City |" +:+ nl +:+
         "| --- | --- | --- |" +:+ nl +:+
         "| Alice | 30 | New York |" +:+ nl)).
Proof.
  intros bytes He Hp. rewrite convert_csv by assumption.
  unfold convertCsv. rewrite Hp. reflexivity.
Qed.

(** C3, as the code has it.  The dispatcher has no case for [txt]: for
    a file name whose text after the last dot is [txt] in any letter
    case, [convert] fails with the unsupported-type error naming
    [txt], and enters no conversion routine. *)
Theorem C3_txt_unsupported (L : libs) (fileBuffer : buffer)
    (mimetype name : string) :
  toLowerCase (after_last_dot name) = "txt" ->
  convert L fileBuffer mimetype name =
    ([], Throw (mkError "Unsupported file type: txt")).
Proof.
  intros Hl.
  rewrite (convert_unknown L fileBuffer mimetype _ "txt").
  - reflexivity.
  - now rewrite extension_of_spec, Hl.
  - unfold known_extensions. rewrite !not_elem_of_cons.
    repeat split; try discriminate. apply not_elem_of_nil.
Qed.

(** C4. When the lower-cased text after the last dot of the file name
    is none of the known extensions, [convert] fails with the error
    [Unsupported file type: ] followed by that text, and enters no
    conversion routine. *)
Theorem C4_unknown_extension (L : libs) (fileBuffer : buffer)
    (mimetype name : string) :
  toLowerCase (after_last_dot name) ∉ known_extensions ->
  convert L fileBuffer mimetype name =
    ([], Throw (mkError ("Unsupported file type: "
                         +:+ toLowerCase (after_last_dot name)))).
Proof.
  intros Hk. apply convert_unknown; [|assumption]. apply extension_of_spec.
Qed.

(** ** XLSX *)


Lemma forEach_sheet_raises (L : libs) (wb : workbook sheet)
    (before : list string) (sheetName : string) (after : list string)
    (e : Error) (markdown : string) :
  Forall (fun n => exists json,
            xlsx_utils_sheet_to_json L (Sheets wb !! n) = Ok json) before ->
  xlsx_utils_sheet_to_json L (Sheets wb !! sheetName) = Throw e ->
  forEach_sheet L wb (before ++ sheetName :: after) markdown = Throw e.
Proof.
  intros Hb He. revert markdown.
  induction Hb as [|n before [json Hj] _ IH]; intros markdown.
  - simpl. now rewrite He.
  - rewrite <- app_comm_cons. cbn [forEach_sheet]. rewrite Hj. apply IH.
Qed.


(** C6. The renderer returns the empty string on an empty sequence of
    rows, and [convert] returns the empty string for a CSV input that
    the parser reads as no record. *)
Theorem C6_empty_rows (L : libs) (fileBuffer : buffer) (mimetype name : string) :
  jsonToMarkdownTable (Some []) = ""
  /\ (toLowerCase (after_last_dot name) = "csv" ->
      parse L fileBuffer = Ok [] ->
      convert L fileBuffer mimetype name = ([ConvertCsv], Ok "")).
Proof.
  split; [reflexivity|].
  intros He Hp. rewrite convert_csv by assumption.
  unfold convertCsv. now rewrite Hp.
Qed.

(** C7. The outcome of [convert], result and routines entered, is the
    same for any two declared MIME types. *)
Theorem C7_mimetype_ignored (L : libs) (fileBuffer : buffer)
    (m1 m2 name : string) :
  convert L fileBuffer m1 name = convert L fileBuffer m2 name.
Proof. reflexivity. Qed.

Lemma convert_routine (L : libs) (fileBuffer : buffer) (mimetype name : string)
    (r : routine) :
  toLowerCase (after_last_dot name) = routine_extension r ->
  convert L fileBuffer mimetype name =
    match r with
    | ConvertDocx => convertDocx L fileBuffer
    | ConvertPdf => convertPdf L fileBuffer
    | ConvertXlsx => convertXlsx L fileBuffer
    | ConvertCsv => convertCsv L fileBuffer
    end.
Proof.
  intros He. unfold convert. rewrite extension_of_spec, He. now destruct r.
Qed.

(** C8. When the parser behind the selected routine raises an error,
    [convert] fails with one error whose message is the routine's
    label followed by the parser's message, unchanged; the outcome is
    a failure and carries no Markdown. *)
Theorem C8_parser_error_wrapped (L : libs) (fileBuffer : buffer)
    (mimetype name : string) (r : routine) (e : Error) :
  toLowerCase (after_last_dot name) = routine_extension r ->
  parser_raises L r fileBuffer e ->
  convert L fileBuffer mimetype name =
    ([r], Throw (mkError
       (routine_label r +:+ " conversion failed: " +:+ message e))).
Proof.
  intros He Hp. rewrite (convert_routine L fileBuffer mimetype name r He).
  destruct Hp as [b e H|b e H|b e H|b wb before sn after e Hr Hn Hb H|b e H].
  - unfold convertDocx. now rewrite H.
  - unfold convertPdf. now rewrite H.
  - unfold convertXlsx. now rewrite H.
  - unfold convertXlsx. rewrite Hr, Hn.
    now rewrite (forEach_sheet_raises L wb before sn after e "" Hb H).
  - unfold convertCsv. now rewrite H.
Qed.

(** C10. A file name without a dot is its own extension once
    lower-cased: [csv] enters the CSV routine and has its outcome, and
    [README] fails with the unsupported-type error naming [readme]. *)
Theorem C10_name_without_dot (L : libs) (fileBuffer : buffer)
    (mimetype name : string) :
  (has_dot name = false -> extension_of name = Some (toLowerCase name))
  /\ convert L fileBuffer mimetype "csv" = convertCsv L fileBuffer
  /\ fst (convert L fileBuffer mimetype "csv") = [ConvertCsv]
  /\ convert L fileBuffer mimetype "README" =
       ([], Throw (mkError "Unsupported file type: readme")).
Proof.
  split; [apply extension_of_no_dot|].
  split; [reflexivity|]. split; reflexivity.
Qed.

(** ** The renderer on the heap *)

Ltac run_M :=
  unfold mbind, M_bind, mret, M_ret, read_cells, read_rows, alloc, push, fail.

Lemma pad_while_done (pc hc : row) :
  ~ length pc < length hc -> pad_while pc hc = pc.
Proof.
  intros H. rewrite pad_while_spec.
  replace (length hc - length pc) with 0 by lia. apply app_nil_r.
Qed.

Lemma pad_while_push (pc hc : row) :
  length pc < length hc -> pad_while (pc ++ [CStr ""]) hc = pad_while pc hc.
Proof.
  intros H. rewrite !pad_while_spec, length_app. cbn [length].
  replace (length hc - length pc) with (S (length hc - (length pc + 1))) by lia.
  cbn [replicate]. now rewrite <- app_assoc.
Qed.

(** With fuel for the missing cells the loop of the heap model ends by
    its test, and leaves the padded row in [paddedRow] and every other
    object as it was. *)
Lemma while_push_run (fuel : nat) (p hd : loc) (h : gmap loc object)
    (pc hc : row) :
  p ≠ hd ->
  h !! p = Some (OCells pc) ->
  h !! hd = Some (OCells hc) ->
  length hc - length pc <= fuel ->
  while_push fuel p hd h = Some (tt, <[p := OCells (pad_while pc hc)]> h).
Proof.
  intros Hne. revert pc h.
  induction fuel as [|fuel IH]; intros pc h Hp Hh Hf.
  - cbn [while_push]. run_M. rewrite Hp, Hh.
    destruct (Nat.ltb_spec (length pc) (length hc)) as [Hlt|Hge]; [lia|].
    rewrite pad_while_done by lia. now rewrite insert_id.
  - cbn [while_push]. run_M. rewrite Hp, Hh.
    destruct (Nat.ltb_spec (length pc) (length hc)) as [Hlt|Hge].
    + rewrite Hp.
      rewrite (IH (pc ++ [CStr ""])).
      * now rewrite insert_insert_eq, pad_while_push.
      * apply lookup_insert_eq.
      * now rewrite lookup_insert_ne.
      * rewrite length_app. cbn [length]. lia.
    + rewrite pad_while_done by lia. now rewrite insert_id.
Qed.

Lemma fresh_loc_unused (h : gmap loc object) : h !! fresh (dom h) = None.
Proof. apply not_elem_of_dom, is_fresh. Qed.

Lemma forEach_body_run (header : loc) (hc : row) (body : list loc)
    (rs : list row) (h : gmap loc object) (markdown : string) :
  h !! header = Some (OCells hc) ->
  Forall2 (fun l r => h !! l = Some (OCells r)) body rs ->
  exists h',
    forEach_body Number_toString header body markdown h =
      Some (fold_left (render_body_row Number_toString hc) rs markdown, h')
    /\ h ⊆ h'.
Proof.
  intros Hh Hb. revert h markdown Hh Hb.
  induction rs as [|r rs IH] in body |- *; intros h markdown Hh Hb.
  - apply Forall2_nil_inv_r in Hb as ->. exists h. split; reflexivity.
  - apply Forall2_cons_inv_r in Hb as (row & body' & Hr & Hb & ->).
    cbn [forEach_body fold_left]. run_M. rewrite Hr.
    pose proof (fresh_loc_unused h) as Hfresh.
    set (p := fresh (dom h)) in *.
    assert (Hne : p ≠ header) by congruence.
    rewrite lookup_insert_ne, Hh by assumption.
    rewrite (while_push_run (length hc) p header _ (spread r) hc Hne);
      [|apply lookup_insert_eq|now rewrite lookup_insert_ne|lia].
    rewrite insert_insert_eq, lookup_insert_eq.
    assert (Hsub : h ⊆ <[p := OCells (pad_while (spread r) hc)]> h)
      by now apply insert_subseteq.
    destruct (IH body' (<[p := OCells (pad_while (spread r) hc)]> h)
                (render_body_row Number_toString hc markdown r))
      as (h' & Hrun & Hsub').
    + now apply (lookup_weaken h).
    + eapply Forall2_impl; [exact Hb|].
      intros l r' Hl. now apply (lookup_weaken h).
    + exists h'. split; [exact Hrun|].
      now transitivity (<[p := OCells (pad_while (spread r) hc)]> h).
Qed.

Lemma holds_table_rows (h : gmap loc object) (rs : list loc) :
  Forall (fun r => exists cs : row, h !! r = Some (OCells cs)) rs ->
  exists rows : list row, Forall2 (fun l r => h !! l = Some (OCells r)) rs rows.
Proof.
  induction 1 as [|l rs [cs Hl] _ [rows IH]].
  - exists []. constructor.
  - exists (cs :: rows). now constructor.
Qed.

(** A run of the heap model on a table: it returns, what it returns is
    the text of the functional renderer on the rows read from the
    store, and the final store extends the initial one. *)
Lemma jsonToMarkdownTable_h_run (h : gmap loc object) (rows : loc)
    (rs : list loc) (table : list row) :
  h !! rows = Some (ORows rs) ->
  Forall2 (fun l r => h !! l = Some (OCells r)) rs table ->
  exists h',
    jsonToMarkdownTable_h Number_toString (Some rows) h =
      Some (jsonToMarkdownTable (Some table), h')
    /\ h ⊆ h'.
Proof.
  intros Hrows Hrs. unfold jsonToMarkdownTable_h. run_M. rewrite Hrows.
  destruct Hrs as [|header hc body table' Hheader Hbody].
  - exists h. split; reflexivity.
  - pose proof (fresh_loc_unused h) as Hb.
    set (b := fresh (dom h)) in *.
    set (h1 := <[b := ORows (drop 1 (header :: body))]> h).
    assert (Hsub1 : h ⊆ h1) by now apply insert_subseteq.
    rewrite (lookup_weaken h h1 header _ Hheader Hsub1).
    pose proof (fresh_loc_unused h1) as Hd.
    set (d := fresh (dom h1)) in *.
    set (h2 := <[d := OCells (array_map (fun _ => CStr "---") hc)]> h1).
    assert (Hsub2 : h1 ⊆ h2) by now apply insert_subseteq.
    unfold h2 at 1. rewrite lookup_insert_eq.
    assert (Hbd : h2 !! b = Some (ORows body)).
    { apply (lookup_weaken h1); [apply lookup_insert_eq | assumption]. }
    rewrite Hbd.
    destruct (forEach_body_run header hc body table' h2
      (("| " +:+ join hc " | " +:+ " |" +:+ nl) +:+
       ("| " +:+ join (array_map (fun _ => CStr "---") hc) " | "
        +:+ " |" +:+ nl)))
      as (h' & Hrun & Hsub').
    + apply (lookup_weaken h); [assumption | now transitivity h1].
    + eapply Forall2_impl; [exact Hbody|].
      intros l r Hl. apply (lookup_weaken h); [assumption | now transitivity h1].
    + exists h'. split; [exact Hrun|].
      transitivity h1; [assumption|]. now transitivity h2.
Qed.

(** The two models of the renderer agree. *)
Lemma jsonToMarkdownTable_h_refines (h : gmap loc object) (rows : loc)
    (table : list row) :
  rows_at h rows = Some table ->
  exists h',
    jsonToMarkdownTable_h Number_toString (Some rows) h =
      Some (jsonToMarkdownTable (Some table), h').
Proof.
  unfold rows_at. intros Hr.
  destruct (h !! rows) as [[rs|cs]|] eqn:Hrows; try discriminate.
  apply mapM_Some in Hr.
  destruct (jsonToMarkdownTable_h_run h rows rs table Hrows) as (h' & Hrun & _).
  - eapply Forall2_impl; [exact Hr|].
    intros l r. unfold cells_at.
    destruct (h !! l) as [[?|?]|]; intros [= ->]; reflexivity.
  - now exists h'.
Qed.

(** C9. The renderer does not change its argument.  Run on a store
    that holds a table at [rows] (or on a null argument), the heap
    model returns, and every object of the initial store, the array
    of rows and each row among them, is the same in the final store:
    the padding goes to a fresh copy of the row. *)
Theorem C9_input_not_mutated (h : gmap loc object) (rows : option loc) :
  (forall r, rows = Some r -> holds_table h r) ->
  exists md h',
    jsonToMarkdownTable_h Number_toString rows h = Some (md, h')
    /\ (forall l o, h !! l = Some o -> h' !! l = Some o)
    /\ (forall r, rows = Some r -> rows_at h' r = rows_at h r).
Proof.
  intros Hrows. destruct rows as [r|].
  - destruct (Hrows r eq_refl) as (rs & Hr & Hrs).
    destruct (holds_table_rows h rs Hrs) as [table Htable].
    destruct (jsonToMarkdownTable_h_run h r rs table Hr Htable)
      as (h' & Hrun & Hsub).
    exists (jsonToMarkdownTable (Some table)), h'.
    split; [exact Hrun|]. split.
    + intros l o Hl. now apply (lookup_weaken h).
    + intros r' [= <-]. unfold rows_at.
      rewrite Hr, (lookup_weaken h h' r _ Hr Hsub).
      apply Forall_mapM_ext. eapply Forall_impl; [exact Hrs|].
      intros l [cs Hl]. unfold cells_at.
      now rewrite Hl, (lookup_weaken h h' l _ Hl Hsub).
  - exists "", h. split; [reflexivity|]. split; [auto | discriminate].
Qed.

End Verification.

(** * Further properties of the service *)

Section Coverage.

Context {number : Type} (Number_toString : number -> string) {sheet : Type}.

Abbreviation cell := (cell number).
Abbreviation row := (row number).
Abbreviation libs := (libs number sheet).
Abbreviation join_text := (join_text Number_toString).
Abbreviation join := (join Number_toString).
Abbreviation jsonToMarkdownTable := (jsonToMarkdownTable Number_toString).
Abbreviation convert := (convert Number_toString).
Abbreviation convertCsv := (convertCsv Number_toString).
Abbreviation convertXlsx := (convertXlsx Number_toString).
Abbreviation forEach_sheet := (forEach_sheet Number_toString).
Abbreviation padded_texts := (padded_texts Number_toString).
Abbreviation line_feeds_in := (line_feeds_in Number_toString).
Abbreviation api_convert := (api_convert Number_toString).
Abbreviation verify := (verify Number_toString).

(** ** The renderer *)

(** X1. The renderer returns the empty string only for a null argument
    or an empty sequence of rows: any table with a header row, even one
    without columns, gives a non-empty text. *)
Theorem render_empty_iff (rows : option (list row)) :
  jsonToMarkdownTable rows = "" <-> rows = None \/ rows = Some [].
Proof.
  split.
  - destruct rows as [[|header body]|]; auto.
    rewrite (table_lines Number_toString). unfold table_line at 1.
    rewrite !append_assoc. discriminate.
  - intros [->| ->]; reflexivity.
Qed.

(** X2. Rows added at the end of the input only add lines at the end
    of the output: the table of [header :: b1 ++ b2] is the table of
    [header :: b1] followed by the lines of [b2]. *)
Theorem render_append_rows (header : row) (b1 b2 : list row) :
  jsonToMarkdownTable (Some (header :: b1 ++ b2)) =
  jsonToMarkdownTable (Some (header :: b1)) +:+
  String.concat "" (map (fun r => table_line (padded_texts header r)) b2).
Proof.
  rewrite !(table_lines Number_toString), map_app, concat_app. now rewrite !append_assoc.
Qed.

Lemma blank_text (c : cell) : blank c = true -> join_text c = "".
Proof. destruct c as [| | |b|n|[|a s]]; simpl; congruence. Qed.

Lemma blank_texts (pads : list cell) :
  Forall (fun c => blank c = true) pads ->
  map join_text pads = replicate (length pads) "".
Proof.
  induction 1 as [|c pads Hc _ IH]; [reflexivity|].
  cbn [map length replicate]. now rewrite IH, blank_text.
Qed.

Lemma render_same_lines (header : row) (b1 b2 : list row) (r r' : row) :
  table_line (padded_texts header r) = table_line (padded_texts header r') ->
  jsonToMarkdownTable (Some (header :: b1 ++ r :: b2)) =
  jsonToMarkdownTable (Some (header :: b1 ++ r' :: b2)).
Proof.
  intros H. rewrite !(table_lines Number_toString), !map_app. cbn [map]. now rewrite H.
Qed.

(** X3. Missing trailing cells, [undefined], [null] and the empty
    string are rendered alike: dropping blank cells from the end of a
    body row that is no longer than the header leaves the table
    unchanged. *)
Theorem render_trailing_blanks (header : row) (b1 b2 : list row)
    (r pads : row) :
  Forall (fun c => blank c = true) pads ->
  length r + length pads <= length header ->
  jsonToMarkdownTable (Some (header :: b1 ++ (r ++ pads) :: b2)) =
  jsonToMarkdownTable (Some (header :: b1 ++ r :: b2)).
Proof.
  intros Hb Hlen. apply render_same_lines. f_equal. unfold padded_texts.
  rewrite map_app, (blank_texts pads Hb), length_app.
  rewrite <- app_assoc, <- replicate_add. do 2 f_equal. lia.
Qed.

Lemma concat_pipe_inside (a b : string) (l : list string) :
  String.concat " | " ((a +:+ " | " +:+ b) :: l) = String.concat " | " (a :: b :: l).
Proof.
  destruct l as [|z l].
  - reflexivity.
  - change (String.concat " | " ((a +:+ " | " +:+ b) :: z :: l))
      with ((a +:+ " | " +:+ b) +:+ " | " +:+ String.concat " | " (z :: l)).
    change (String.concat " | " (a :: b :: z :: l))
      with (a +:+ " | " +:+ b +:+ " | " +:+ String.concat " | " (z :: l)).
    now rewrite !append_assoc.
Qed.

(** X4. Cell texts are not escaped: in a body row that fills the
    header's width, one cell holding [a | b] gives the same table as
    the two cells [a] and [b], so the output does not determine the
    cells. *)
Theorem render_pipe_not_escaped (header : row) (b1 b2 : list row)
    (a b : string) (rest : row) :
  length header <= S (length rest) ->
  jsonToMarkdownTable
    (Some (header :: b1 ++ (CStr (a +:+ " | " +:+ b) :: rest) :: b2)) =
  jsonToMarkdownTable
    (Some (header :: b1 ++ (CStr a :: CStr b :: rest) :: b2)).
Proof.
  intros Hlen. apply render_same_lines. unfold padded_texts, table_line.
  cbn [length map].
  replace (length header - S (length rest)) with 0 by lia.
  replace (length header - S (S (length rest))) with 0 by lia.
  cbn [replicate]. rewrite !app_nil_r.
  change (join_text (CStr ?x)) with x. now rewrite concat_pipe_inside.
Qed.

Lemma count_nl_app (s t : string) :
  count_nl (s +:+ t) = count_nl s + count_nl t.
Proof.
  induction s as [|c s IH]; [reflexivity|].
  rewrite append_cons. cbn [count_nl]. rewrite IH. lia.
Qed.

Lemma count_nl_concat_pipe (cells : list string) :
  count_nl (String.concat " | " cells) = sum_list_with count_nl cells.
Proof.
  destruct cells as [|x cells]; [reflexivity|].
  rewrite concat_sep_cons, count_nl_app. cbn [sum_list_with]. f_equal.
  induction cells as [|y cells IH]; [reflexivity|].
  cbn [map]. rewrite concat_cons, !count_nl_app, IH. reflexivity.
Qed.

Lemma count_nl_table_line (cells : list string) :
  count_nl (table_line cells) = S (sum_list_with count_nl cells).
Proof.
  unfold table_line. rewrite !count_nl_app, count_nl_concat_pipe.
  change (count_nl "| ") with 0. change (count_nl " |") with 0.
  change (count_nl nl) with 1. lia.
Qed.

Lemma count_nl_replicate (n : nat) (s : string) :
  sum_list_with count_nl (replicate n s) = n * count_nl s.
Proof. induction n as [|n IH]; [reflexivity|]. cbn. now rewrite IH. Qed.

Lemma count_nl_separator (header : row) :
  sum_list_with count_nl (separator_texts header) = 0.
Proof.
  induction header as [|c header IH]; [reflexivity|].
  cbn [separator_texts map sum_list_with]. fold (separator_texts header).
  rewrite IH. now destruct (is_hole c).
Qed.

Lemma count_nl_texts (r : row) :
  sum_list_with count_nl (map join_text r) = line_feeds_in r.
Proof.
  unfold line_feeds_in. induction r as [|c r IH]; [reflexivity|].
  cbn. now rewrite IH.
Qed.

(** X5. The number of line feeds in a rendered table is two, plus one
    per body row, plus the line feeds inside the cell texts; when no
    cell text has a line feed the table has exactly two more lines
    than body rows. *)
Theorem render_line_count (header : row) (body : list row) :
  count_nl (jsonToMarkdownTable (Some (header :: body))) =
  2 + length body + sum_list_with line_feeds_in (header :: body).
Proof.
  rewrite (table_lines Number_toString), !count_nl_app, !count_nl_table_line.
  rewrite count_nl_separator, count_nl_texts. cbn [sum_list_with length].
  assert (Hbody : count_nl
            (String.concat "" (map (fun r => table_line (padded_texts header r)) body))
          = length body + sum_list_with line_feeds_in body).
  { induction body as [|r body IH]; [reflexivity|].
    cbn [map]. rewrite concat_cons, count_nl_app, IH, count_nl_table_line.
    unfold padded_texts. rewrite sum_list_with_app, count_nl_replicate.
    rewrite count_nl_texts. cbn [sum_list_with length count_nl]. lia. }
  rewrite Hbody. lia.
Qed.

(** X6. A header without columns is not guarded against: the header
    line and the separator line are both [|  |], and no body row is
    padded. *)
Theorem render_empty_header (body : list row) :
  jsonToMarkdownTable (Some ([] :: body)) =
  ("|  |" +:+ nl) +:+ ("|  |" +:+ nl) +:+
  String.concat "" (map (fun r => table_line (map join_text r)) body).
Proof.
  rewrite (table_lines Number_toString). do 2 f_equal. f_equal.
  apply map_ext. intros r. unfold padded_texts. cbn [length].
  cbn [Nat.sub replicate]. now rewrite app_nil_r.
Qed.

(** ** XLSX *)

Lemma forEach_sheet_empty (L : libs) (wb : workbook sheet)
    (names : list string) (markdown : string) :
  Forall (fun n => xlsx_utils_sheet_to_json L (Sheets wb !! n) = Ok []) names ->
  forEach_sheet L wb names markdown = Ok markdown.
Proof.
  induction 1 as [|n names Hn _ IH]; [reflexivity|].
  cbn [forEach_sheet]. now rewrite Hn.
Qed.

(** X7. A workbook without sheets, or whose sheets all convert to no
    rows, is converted to the empty string, without any heading. *)
Theorem xlsx_without_rows (L : libs) (buffer : buffer) (wb : workbook sheet) :
  xlsx_read L buffer = Ok wb ->
  Forall (fun n => xlsx_utils_sheet_to_json L (Sheets wb !! n) = Ok [])
    (SheetNames wb) ->
  convertXlsx L buffer = ([ConvertXlsx], Ok "").
Proof.
  intros Hr Hs. unfold convertXlsx. rewrite Hr.
  now rewrite (forEach_sheet_empty L wb _ "" Hs).
Qed.

(** ** The dispatcher *)

Lemma lower_ascii_dot (c : ascii) :
  Ascii.eqb (lower_ascii c) dot = Ascii.eqb c dot.
Proof. destruct c as [[] [] [] [] [] [] [] []]; reflexivity. Qed.

Lemma has_dot_toLowerCase (s : string) : has_dot (toLowerCase s) = has_dot s.
Proof.
  induction s as [|c s IH]; [reflexivity|].
  cbn [toLowerCase has_dot]. now rewrite lower_ascii_dot, IH.
Qed.

Lemma after_last_dot_toLowerCase (s : string) :
  after_last_dot (toLowerCase s) = toLowerCase (after_last_dot s).
Proof.
  induction s as [|c s IH]; [reflexivity|].
  cbn [toLowerCase after_last_dot].
  rewrite has_dot_toLowerCase, lower_ascii_dot, IH.
  destruct (has_dot s); [reflexivity|]. now destruct (Ascii.eqb c dot).
Qed.

Lemma convert_by_extension (L : libs) (fileBuffer : buffer)
    (mimetype n1 n2 : string) :
  toLowerCase (after_last_dot n1) = toLowerCase (after_last_dot n2) ->
  convert L fileBuffer mimetype n1 = convert L fileBuffer mimetype n2.
Proof. intros H. unfold convert. now rewrite !extension_of_spec, H. Qed.

(** X8. The dispatcher ignores letter case in the whole file name: two
    names that are equal once lower-cased are converted alike. *)
Theorem convert_case_insensitive (L : libs) (fileBuffer : buffer)
    (mimetype n1 n2 : string) :
  toLowerCase n1 = toLowerCase n2 ->
  convert L fileBuffer mimetype n1 = convert L fileBuffer mimetype n2.
Proof.
  intros H. apply convert_by_extension.
  now rewrite <- !after_last_dot_toLowerCase, H.
Qed.

(** X9. [convert] enters at most one routine, and it enters routine
    [r] exactly when the lower-cased text after the last dot of the
    name is the extension of [r]. *)
Theorem convert_enters_routine (L : libs) (fileBuffer : buffer)
    (mimetype name : string) (r : routine) :
  length (fst (convert L fileBuffer mimetype name)) <= 1
  /\ (fst (convert L fileBuffer mimetype name) = [r] <->
      toLowerCase (after_last_dot name) = routine_extension r).
Proof.
  unfold convert. rewrite extension_of_spec.
  set (ext := toLowerCase (after_last_dot name)).
  destruct (String.eqb_spec ext "docx") as [->|N1];
    [split; [simpl; lia | destruct r; split; intros H; (discriminate H || reflexivity)]|].
  destruct (String.eqb_spec ext "pdf") as [->|N2];
    [split; [simpl; lia | destruct r; split; intros H; (discriminate H || reflexivity)]|].
  destruct (String.eqb_spec ext "xlsx") as [->|N3];
    [split; [simpl; lia | destruct r; split; intros H; (discriminate H || reflexivity)]|].
  destruct (String.eqb_spec ext "csv") as [->|N4];
    [split; [simpl; lia | destruct r; split; intros H; (discriminate H || reflexivity)]|].
  split; [simpl; lia|]. split; [discriminate|].
  intros H. destruct r; simpl in H; congruence.
Qed.

Lemma forEach_sheet_raises_inv (L : libs) (wb : workbook sheet)
    (names : list string) (markdown : string) (e : Error) :
  forEach_sheet L wb names markdown = Throw e ->
  exists before sheetName after,
    names = before ++ sheetName :: after
    /\ Forall (fun n => exists json,
                 xlsx_utils_sheet_to_json L (Sheets wb !! n) = Ok json) before
    /\ xlsx_utils_sheet_to_json L (Sheets wb !! sheetName) = Throw e.
Proof.
  revert markdown. induction names as [|n names IH]; intros markdown H.
  - discriminate H.
  - cbn [forEach_sheet] in H.
    destruct (xlsx_utils_sheet_to_json L (Sheets wb !! n)) as [json|e'] eqn:Hn.
    + apply IH in H as (before & sn & after & -> & Hb & He).
      exists (n :: before), sn, after. split; [reflexivity|].
      split; [|exact He]. constructor; [now exists json | exact Hb].
    + injection H as ->. exists [], n, names.
      split; [reflexivity|]. split; [constructor | exact Hn].
Qed.

(** X10. [convert] fails for two reasons only.  When it rejects with
    an error, either the extension is none of the known ones and the
    error is the unsupported-type error naming it, or the parser of
    the selected routine raised and the error is the routine's label
    followed by the parser's message. *)
Theorem convert_failure_cause (L : libs) (fileBuffer : buffer)
    (mimetype name : string) (e : Error) :
  snd (convert L fileBuffer mimetype name) = Throw e ->
  ((toLowerCase (after_last_dot name) ∉ known_extensions)
   /\ e = mkError ("Unsupported file type: "
                   +:+ toLowerCase (after_last_dot name)))
  \/ (exists r cause,
        toLowerCase (after_last_dot name) = routine_extension r
        /\ parser_raises L r fileBuffer cause
        /\ e = mkError (routine_label r +:+ " conversion failed: "
                        +:+ message cause)).
Proof.
  unfold convert. rewrite extension_of_spec.
  set (ext := toLowerCase (after_last_dot name)).
  destruct (String.eqb_spec ext "docx") as [E1|N1].
  { intros H. right. exists ConvertDocx. unfold convertDocx in H. simpl in H.
    destruct (mammoth_extractRawText L fileBuffer) as [t|c] eqn:Hc;
      [discriminate H|]. injection H as <-.
    exists c. split; [exact E1|]. split; [now constructor | reflexivity]. }
  destruct (String.eqb_spec ext "pdf") as [E2|N2].
  { intros H. right. exists ConvertPdf. unfold convertPdf in H. simpl in H.
    destruct (pdf L fileBuffer) as [t|c] eqn:Hc; [discriminate H|].
    injection H as <-.
    exists c. split; [exact E2|]. split; [now constructor | reflexivity]. }
  destruct (String.eqb_spec ext "xlsx") as [E3|N3].
  { intros H. right. exists ConvertXlsx. unfold convertXlsx in H. simpl in H.
    destruct (xlsx_read L fileBuffer) as [wb|c] eqn:Hr.
    - destruct (forEach_sheet L wb (SheetNames wb) "") as [t|c] eqn:Hc;
        [discriminate H|]. injection H as <-.
      apply forEach_sheet_raises_inv in Hc as (before & sn & after & Hn & Hb & He).
      exists c. split; [exact E3|]. split; [|reflexivity].
      now apply (xlsx_sheet_raises L fileBuffer wb before sn after).
    - injection H as <-. exists c. split; [exact E3|].
      split; [now apply xlsx_read_raises | reflexivity]. }
  destruct (String.eqb_spec ext "csv") as [E4|N4].
  { intros H. right. exists ConvertCsv. unfold convertCsv in H. simpl in H.
    destruct (parse L fileBuffer) as [t|c] eqn:Hc; [discriminate H|].
    injection H as <-.
    exists c. split; [exact E4|]. split; [now constructor | reflexivity]. }
  intros H. left. simpl in H. injection H as <-. split; [|reflexivity].
  unfold known_extensions. rewrite !not_elem_of_cons.
  repeat split; try assumption. apply not_elem_of_nil.
Qed.

(** X11. A name that ends in a dot, like the empty name, has the empty
    extension: [convert] fails with the unsupported-type error naming
    nothing, and enters no routine. *)
Theorem convert_empty_extension (L : libs) (fileBuffer : buffer)
    (mimetype pre : string) :
  convert L fileBuffer mimetype (pre +:+ ".") =
    ([], Throw (mkError "Unsupported file type: "))
  /\ convert L fileBuffer mimetype "" =
    ([], Throw (mkError "Unsupported file type: ")).
Proof.
  split; [|reflexivity].
  rewrite (convert_unknown Number_toString L fileBuffer mimetype _ "").
  - reflexivity.
  - now apply (extension_of_after_last_dot pre "").
  - unfold known_extensions. rewrite !not_elem_of_cons.
    repeat split; try discriminate. apply not_elem_of_nil.
Qed.

(** X12. For DOCX and PDF the text the library extracts is the result,
    unchanged: nothing is added to it and nothing is escaped. *)
Theorem convert_text_unchanged (L : libs) (fileBuffer : buffer)
    (mimetype name text : string) :
  (toLowerCase (after_last_dot name) = "docx"
   /\ mammoth_extractRawText L fileBuffer = Ok text)
  \/ (toLowerCase (after_last_dot name) = "pdf"
      /\ pdf L fileBuffer = Ok text) ->
  snd (convert L fileBuffer mimetype name) = Ok text.
Proof.
  intros [[He Ht]|[He Ht]].
  - rewrite (convert_routine Number_toString L fileBuffer mimetype name
               ConvertDocx He).
    unfold convertDocx. simpl. now rewrite Ht.
  - rewrite (convert_routine Number_toString L fileBuffer mimetype name
               ConvertPdf He).
    unfold convertPdf. simpl. now rewrite Ht.
Qed.

(** ** The upload endpoint *)

(** X13. The three answers of the endpoint do not overlap: 400 is sent
    exactly when the request has no file, a Markdown body comes with
    status 200 only, and an error is written to the console exactly
    with status 500. *)
Theorem api_convert_answers (L : libs) (file : option upload) :
  let r := api_convert L file in
  (status r = 400 <-> file = None)
  /\ (status r = 200 <-> exists markdown, body r = MarkdownBody markdown)
  /\ (status r = 500 <-> exists error, console_error r = Some error)
  /\ (status r = 200 \/ status r = 400 \/ status r = 500).
Proof.
  unfold api_convert. destruct file as [f|]; cbn zeta.
  - destruct (snd (convert L (file_buffer f) (file_mimetype f)
                     (file_originalname f))) as [md|e]; cbn.
    + repeat split; try discriminate; try (intros [? [=]]); eauto.
    + repeat split; try discriminate; try (intros [? [=]]); eauto.
  - cbn. repeat split; try discriminate; try (intros [? [=]]); eauto.
Qed.

(** X14. An upload whose name has an unknown extension is answered
    with status 500, not 400, and the body carries the
    unsupported-type message naming the extension. *)
Theorem api_convert_unsupported (L : libs) (file : upload) :
  toLowerCase (after_last_dot (file_originalname file)) ∉ known_extensions ->
  api_convert L (Some file) =
    let message := "Unsupported file type: "
                   +:+ toLowerCase (after_last_dot (file_originalname file)) in
    mkResponse 500 (ErrorBody message) (Some (mkError message)).
Proof.
  intros Hk. unfold api_convert.
  rewrite (convert_unknown Number_toString L _ _ _
             (toLowerCase (after_last_dot (file_originalname file))));
    [reflexivity | apply extension_of_spec | assumption].
Qed.

(** X15. When the parser of the selected routine raises, the endpoint
    answers 500 and sends the parser's message to the client, behind
    the routine's label. *)
Theorem api_convert_parser_failure (L : libs) (file : upload) (r : routine)
    (cause : Error) :
  toLowerCase (after_last_dot (file_originalname file)) = routine_extension r ->
  parser_raises L r (file_buffer file) cause ->
  status (api_convert L (Some file)) = 500
  /\ body (api_convert L (Some file)) =
       ErrorBody (routine_label r +:+ " conversion failed: " +:+ message cause).
Proof.
  intros He Hp. unfold api_convert.
  rewrite (convert_routine Number_toString L _ _ _ r He).
  destruct Hp as [b e H|b e H|b e H|b wb before sn after e Hr Hn Hb H|b e H].
  - unfold convertDocx. simpl. rewrite H. split; reflexivity.
  - unfold convertPdf. simpl. rewrite H. split; reflexivity.
  - unfold convertXlsx. simpl. rewrite H. split; reflexivity.
  - unfold convertXlsx. simpl. rewrite Hr, Hn.
    rewrite (forEach_sheet_raises Number_toString L wb before sn after e "" Hb H).
    split; reflexivity.
  - unfold convertCsv. simpl. rewrite H. split; reflexivity.
Qed.

(** ** The verification script *)

Lemma prefix_app (needle s : string) : String.prefix needle (needle +:+ s) = true.
Proof.
  induction needle as [|c needle IH]; [now destruct s|].
  rewrite append_cons. cbn [String.prefix].
  destruct (ascii_dec c c) as [_|N]; [exact IH | now destruct N].
Qed.

Lemma includes_app (a needle b : string) :
  includes (a +:+ needle +:+ b) needle = true.
Proof.
  induction a as [|c a IH].
  - rewrite append_nil_l. destruct needle as [|c needle].
    + now destruct b.
    + rewrite append_cons. cbn [includes].
      rewrite <- append_cons, prefix_app. reflexivity.
  - rewrite append_cons. cbn [includes]. rewrite IH. apply orb_true_r.
Qed.

(** X16. The script reports success, and does not call [process.exit],
    whenever the file is read and parsed into a header
    [Name, Age, City] and a body that has the row
    [Alice, 30, New York] somewhere; other rows do not matter. *)
Theorem verify_succeeds (L : libs) (buffer : buffer) (b1 b2 : list row) :
  let records :=
    [CStr "Name"; CStr "Age"; CStr "City"]
    :: b1 ++ [CStr "Alice"; CStr "30"; CStr "New York"] :: b2 in
  parse L buffer = Ok records ->
  verify L (Ok buffer) =
    mkRun [ConsoleLog "--- CSV Conversion Result ---";
           ConsoleLog (jsonToMarkdownTable (Some records));
           ConsoleLog "SUCCESS: CSV conversion verified."] None.
Proof.
  intros records Hp.
  assert (Hc : snd (convert L buffer "text/csv" "test.csv") =
               Ok (jsonToMarkdownTable (Some records))).
  { change (convert L buffer "text/csv" "test.csv") with (convertCsv L buffer).
    unfold convertCsv. cbn [snd]. now rewrite Hp. }
  assert (H1 : includes (jsonToMarkdownTable (Some records))
                 "| Name | Age | City |" = true).
  { unfold records. rewrite (render_table_text Number_toString). cbn [table_text].
    apply (includes_app "" "| Name | Age | City |"). }
  assert (H2 : includes (jsonToMarkdownTable (Some records))
                 "| Alice | 30 | New York |" = true).
  { unfold records. rewrite (render_table_text Number_toString). cbn [table_text].
    rewrite map_app, concat_app.
    cbn [map]. rewrite concat_cons.
    change (table_line (padded_texts _ [CStr "Alice"; CStr "30"; CStr "New York"]))
      with ("| Alice | 30 | New York |" +:+ nl).
    set (X := table_line _). set (Y := table_line _).
    set (Z := String.concat "" _). set (W := String.concat "" _).
    replace (X +:+ Y +:+ Z +:+ ("| Alice | 30 | New York |" +:+ nl) +:+ W)
      with ((X +:+ Y +:+ Z) +:+ "| Alice | 30 | New York |" +:+ (nl +:+ W))
      by now rewrite !append_assoc.
    apply includes_app. }
  unfold verify. rewrite Hc, H1, H2. reflexivity.
Qed.

(** X17. The script ends with exit code 1, printing the error and no
    result, when the parser rejects the file: the error it prints is
    the CSV routine's wrapping of the parser's message. *)
Theorem verify_parser_failure (L : libs) (buffer : buffer) (cause : Error) :
  parse L buffer = Throw cause ->
  verify L (Ok buffer) =
    mkRun [ConsoleErrorWith "Verification failed:"
             (mkError ("CSV conversion failed: " +:+ message cause))]
          (Some 1).
Proof.
  intros Hp. unfold verify.
  change (convert L buffer "text/csv" "test.csv") with (convertCsv L buffer).
  unfold convertCsv. cbn [snd]. now rewrite Hp.
Qed.

(** X18. An uploaded CSV file that the parser reads as no record is
    not an error: the endpoint answers 200 with the empty string as
    Markdown. *)
Theorem api_convert_empty_csv (L : libs) (file : upload) :
  toLowerCase (after_last_dot (file_originalname file)) = "csv" ->
  parse L (file_buffer file) = Ok [] ->
  api_convert L (Some file) = mkResponse 200 (MarkdownBody "") None.
Proof.
  intros He Hp. unfold api_convert.
  rewrite (convert_csv Number_toString L _ _ _ He).
  unfold convertCsv. cbn [snd]. now rewrite Hp.
Qed.

(** ** The renderer on the heap *)

(** X19. The text the renderer returns is determined by the contents
    of the rows alone, whatever arrays they share: on any store that
    holds the table [table] at [rows], the run on the heap returns the
    text of [table]. *)
Theorem render_ignores_sharing (h : gmap loc (object number)) (rows : loc)
    (table : list row) :
  rows_at h rows = Some table ->
  fst <$> jsonToMarkdownTable_h Number_toString (Some rows) h =
  Some (jsonToMarkdownTable (Some table)).
Proof.
  intros Hr.
  destruct (jsonToMarkdownTable_h_refines Number_toString h rows table Hr)
    as [h' Hrun].
  now rewrite Hrun.
Qed.

End Coverage.

(** * The theorems at concrete inputs *)

(** ** Test runs of the embedding *)

Example convert_csv_run :
  convert decimal sample_libs
    ("Name,Age,City" +:+ nl +:+ nl +:+ "Alice,30" +:+ nl +:+ "a,b,c,d") "text/csv"
    "archive.tar.CSV" =
  ([ConvertCsv],
   Ok ("| Name | Age | City |" +:+ nl +:+
       "| --- | --- | --- |" +:+ nl +:+
       "| Alice | 30 |  |" +:+ nl +:+
       "| a | b | c | d |" +:+ nl)).
Proof. vm_compute. reflexivity. Qed.

Example convert_xlsx_run :
  convert decimal sample_libs "PK" "application/octet-stream" "book.xlsx" =
  ([ConvertXlsx],
   Ok ("## Sheet: Sales" +:+ nl +:+ nl +:+
       "| Item | Qty |" +:+ nl +:+
       "| --- | --- |" +:+ nl +:+
       "| Pen | 3 |" +:+ nl +:+ nl +:+ nl +:+
       "## Sheet: Totals" +:+ nl +:+ nl +:+
       "| Sum |" +:+ nl +:+
       "| --- |" +:+ nl +:+
       "| 3 |  |" +:+ nl +:+ nl +:+ nl)).
Proof. vm_compute. reflexivity. Qed.

Example convert_pdf_failure_run :
  convert decimal failing_libs "%PDF" "application/pdf" "scan.PDF" =
  ([ConvertPdf], Throw (mkError "PDF conversion failed: Invalid PDF structure")).
Proof. vm_compute. reflexivity. Qed.

Example header_without_columns_run :
  jsonToMarkdownTable decimal (Some [[]; []; [CNum 7]]) =
  "|  |" +:+ nl +:+ "|  |" +:+ nl +:+ "|  |" +:+ nl +:+ "| 7 |" +:+ nl.
Proof. vm_compute. reflexivity. Qed.

Example heap_run :
  fst <$> jsonToMarkdownTable_h decimal (Some 1%positive) sample_heap =
  Some ("| k | v |" +:+ nl +:+ "| --- | --- |" +:+ nl +:+
        "| k | v |" +:+ nl +:+ "| 1 |  |" +:+ nl).
Proof. vm_compute. reflexivity. Qed.

(** ** Instances of the theorems *)

(** C1, at a header with a hole.  For the rows [[a, <hole>, c]; [1]],
    which the XLSX routine passes on for a sheet whose second cell in
    the first row is empty, the separator line is [| --- |  | --- |]:
    its second cell is empty, not [---], so the text is not the one
    with an all-[---] separator. *)
Theorem C1_sparse_header_separator :
  jsonToMarkdownTable decimal (Some [[CStr "a"; CHole; CStr "c"]; [CNum 1]]) =
    "| a |  | c |" +:+ nl +:+
    "| --- |  | --- |" +:+ nl +:+
    "| 1 |  |  |" +:+ nl
  /\ jsonToMarkdownTable decimal (Some [[CStr "a"; CHole; CStr "c"]; [CNum 1]]) <>
       table_line ["a"; ""; "c"] +:+ table_line (replicate 3 "---") +:+
       table_line ["1"; ""; ""]
  /\ convert decimal sparse_workbook_libs "PK" "" "book.xlsx" =
       ([ConvertXlsx],
        Ok ("## Sheet: Data" +:+ nl +:+ nl +:+
            "| a |  | c |" +:+ nl +:+
            "| --- |  | --- |" +:+ nl +:+
            "| 1 |  |  |" +:+ nl +:+ nl +:+ nl)).
Proof.
  split; [vm_compute; reflexivity|].
  split; [vm_compute; discriminate|].
  vm_compute. reflexivity.
Qed.

Lemma table_structure_witness :
  jsonToMarkdownTable decimal
    (Some [[CStr "a"; CStr "b"]; [CNum 1]; [CNum 1; CNum 2; CNum 3]]) =
  table_line ["a"; "b"] +:+ table_line ["---"; "---"] +:+
  String.concat "" [table_line ["1"; ""]; table_line ["1"; "2"; "3"]].
Proof.
  exact (proj1 (table_structure decimal [CStr "a"; CStr "b"]
                 [[CNum 1]; [CNum 1; CNum 2; CNum 3]])).
Defined.

Lemma C2_csv_example_witness :
  let bytes := "Name,Age,City" +:+ nl +:+ "Alice,30,New York" +:+ nl in
  toLowerCase (after_last_dot "test.csv") = "csv"
  /\ parse sample_libs bytes =
       Ok [[CStr "Name"; CStr "Age"; CStr "City"];
           [CStr "Alice"; CStr "30"; CStr "New York"]]
  /\ convert decimal sample_libs bytes "text/csv" "test.csv" =
       ([ConvertCsv],
        Ok ("| Name | Age | City |" +:+ nl +:+
            "| --- | --- | --- |" +:+ nl +:+
            "| Alice | 30 | New York |" +:+ nl)).
Proof.
  intros bytes.
  assert (He : toLowerCase (after_last_dot "test.csv") = "csv") by reflexivity.
  assert (Hp : parse sample_libs bytes =
                 Ok [[CStr "Name"; CStr "Age"; CStr "City"];
                     [CStr "Alice"; CStr "30"; CStr "New York"]])
    by reflexivity.
  split; [exact He|]. split; [exact Hp|].
  exact (C2_csv_example decimal sample_libs "text/csv" "test.csv" He Hp).
Defined.

(** C3, as the claim states it, fails: [notes.txt] is not converted. *)
Lemma C3_txt_counterexample :
  ~ exists markdown : string,
      snd (convert decimal sample_libs "Title" "text/plain" "notes.txt") =
      Ok markdown.
Proof. intros [markdown H]. vm_compute in H. discriminate H. Qed.

Lemma C3_txt_unsupported_witness :
  toLowerCase (after_last_dot "meeting.notes.TXT") = "txt"
  /\ convert decimal sample_libs "Title" "text/plain" "meeting.notes.TXT" =
       ([], Throw (mkError "Unsupported file type: txt")).
Proof.
  assert (Hl : toLowerCase (after_last_dot "meeting.notes.TXT") = "txt")
    by reflexivity.
  split; [exact Hl|].
  exact (C3_txt_unsupported decimal sample_libs "Title" "text/plain"
           "meeting.notes.TXT" Hl).
Defined.

Lemma C4_unknown_extension_witness :
  (toLowerCase (after_last_dot "file.xyz") ∉ known_extensions)
  /\ convert decimal sample_libs "data" "text/plain" "file.xyz" =
       ([], Throw (mkError "Unsupported file type: xyz")).
Proof.
  assert (Hk : toLowerCase (after_last_dot "file.xyz") ∉ known_extensions).
  { unfold known_extensions. rewrite !not_elem_of_cons.
    repeat split; try (vm_compute; discriminate). apply not_elem_of_nil. }
  split; [exact Hk|].
  exact (C4_unknown_extension decimal sample_libs "data" "text/plain"
           "file.xyz" Hk).
Defined.


Lemma C6_empty_rows_witness :
  toLowerCase (after_last_dot "empty.csv") = "csv"
  /\ parse sample_libs (nl +:+ nl) = Ok []
  /\ convert decimal sample_libs (nl +:+ nl) "text/csv" "empty.csv" =
       ([ConvertCsv], Ok "").
Proof.
  assert (He : toLowerCase (after_last_dot "empty.csv") = "csv") by reflexivity.
  assert (Hp : parse sample_libs (nl +:+ nl) = Ok []) by reflexivity.
  split; [exact He|]. split; [exact Hp|].
  exact (proj2 (C6_empty_rows decimal sample_libs (nl +:+ nl) "text/csv"
                  "empty.csv") He Hp).
Defined.

Lemma C8_parser_error_wrapped_witness :
  toLowerCase (after_last_dot "book.xlsx") = routine_extension ConvertXlsx
  /\ parser_raises sheet_failing_libs ConvertXlsx "PK" (mkError "Bad range")
  /\ convert decimal sheet_failing_libs "PK" "" "book.xlsx" =
       ([ConvertXlsx], Throw (mkError "XLSX conversion failed: Bad range")).
Proof.
  assert (He : toLowerCase (after_last_dot "book.xlsx") =
               routine_extension ConvertXlsx) by reflexivity.
  assert (Hp : parser_raises sheet_failing_libs ConvertXlsx "PK"
                 (mkError "Bad range")).
  { eapply (xlsx_sheet_raises sheet_failing_libs "PK" _ ["Sales"] "Gone" ["Totals"]).
    - reflexivity.
    - reflexivity.
    - repeat constructor. eexists. reflexivity.
    - reflexivity. }
  split; [exact He|]. split; [exact Hp|].
  exact (C8_parser_error_wrapped decimal sheet_failing_libs "PK" ""
           "book.xlsx" ConvertXlsx (mkError "Bad range") He Hp).
Defined.

Lemma C9_input_not_mutated_witness :
  (forall r, Some 1%positive = Some r -> holds_table sample_heap r)
  /\ exists md h',
       jsonToMarkdownTable_h decimal (Some 1%positive) sample_heap = Some (md, h')
       /\ (forall l o, sample_heap !! l = Some o -> h' !! l = Some o)
       /\ (forall r, Some 1%positive = Some r ->
           rows_at h' r = rows_at sample_heap r).
Proof.
  assert (Ht : forall r, Some 1%positive = Some r -> holds_table sample_heap r).
  { intros r [= <-]. exists [2; 2; 3]%positive. split; [reflexivity|].
    repeat constructor; eexists; reflexivity. }
  split; [exact Ht|].
  exact (C9_input_not_mutated decimal sample_heap (Some 1%positive) Ht).
Defined.

Lemma C10_name_without_dot_witness :
  has_dot "README" = false
  /\ extension_of "README" = Some (toLowerCase "README")
  /\ convert decimal sample_libs "x" "" "csv" = convertCsv decimal sample_libs "x"
  /\ convert decimal sample_libs "x" "" "README" =
       ([], Throw (mkError "Unsupported file type: readme")).
Proof.
  assert (Hd : has_dot "README" = false) by reflexivity.
  pose proof (C10_name_without_dot decimal sample_libs "x" "" "README")
    as (Hext & Hcsv & _ & Hreadme).
  split; [exact Hd|]. split; [exact (Hext Hd)|]. split; [exact Hcsv | exact Hreadme].
Defined.

(** ** Instances of the further properties *)

Lemma render_trailing_blanks_witness :
  Forall (fun c : cell nat => blank c = true) [CNull; CStr ""]
  /\ length [CNum 1] + length [@CNull nat; CStr ""] <= length [@CStr nat "a"; CStr "b"; CStr "c"]
  /\ jsonToMarkdownTable decimal
       (Some ([CStr "a"; CStr "b"; CStr "c"] :: [] ++ ([CNum 1] ++ [CNull; CStr ""]) :: [])) =
     jsonToMarkdownTable decimal
       (Some ([CStr "a"; CStr "b"; CStr "c"] :: [] ++ [CNum 1] :: [])).
Proof.
  assert (Hb : Forall (fun c : cell nat => blank c = true) [CNull; CStr ""])
    by (repeat constructor).
  assert (Hl : length [CNum 1] + length [@CNull nat; CStr ""]
               <= length [@CStr nat "a"; CStr "b"; CStr "c"]) by (simpl; lia).
  split; [exact Hb|]. split; [exact Hl|].
  exact (render_trailing_blanks decimal [CStr "a"; CStr "b"; CStr "c"] [] []
           [CNum 1] [CNull; CStr ""] Hb Hl).
Defined.

Lemma render_pipe_not_escaped_witness :
  length [@CStr nat "k"; CStr "v"] <= S (length [@CStr nat "z"])
  /\ jsonToMarkdownTable decimal
       (Some ([CStr "k"; CStr "v"] :: [] ++ (CStr ("x" +:+ " | " +:+ "y") :: [CStr "z"]) :: [])) =
     jsonToMarkdownTable decimal
       (Some ([CStr "k"; CStr "v"] :: [] ++ (CStr "x" :: CStr "y" :: [CStr "z"]) :: [])).
Proof.
  assert (Hl : length [@CStr nat "k"; CStr "v"] <= S (length [@CStr nat "z"]))
    by (simpl; lia).
  split; [exact Hl|].
  exact (render_pipe_not_escaped decimal [CStr "k"; CStr "v"] [] [] "x" "y"
           [CStr "z"] Hl).
Defined.

Lemma xlsx_without_rows_witness :
  let wb := {| SheetNames := ["Empty"; "Missing"];
               Sheets := <["Empty" := ([] : list (row nat))]> ∅ |} in
  xlsx_read blank_workbook_libs "PK" = Ok wb
  /\ Forall (fun n =>
       xlsx_utils_sheet_to_json blank_workbook_libs (Sheets wb !! n) = Ok [])
       (SheetNames wb)
  /\ convertXlsx decimal blank_workbook_libs "PK" = ([ConvertXlsx], Ok "").
Proof.
  intros wb.
  assert (Hr : xlsx_read blank_workbook_libs "PK" = Ok wb) by reflexivity.
  assert (Hs : Forall (fun n =>
              xlsx_utils_sheet_to_json blank_workbook_libs (Sheets wb !! n) = Ok [])
              (SheetNames wb)) by (repeat constructor).
  split; [exact Hr|]. split; [exact Hs|].
  exact (xlsx_without_rows decimal blank_workbook_libs "PK" wb Hr Hs).
Defined.

Lemma convert_case_insensitive_witness :
  toLowerCase "Report.PDF" = toLowerCase "report.Pdf"
  /\ convert decimal sample_libs "%PDF" "" "Report.PDF" =
     convert decimal sample_libs "%PDF" "" "report.Pdf".
Proof.
  assert (H : toLowerCase "Report.PDF" = toLowerCase "report.Pdf") by reflexivity.
  split; [exact H|].
  exact (convert_case_insensitive decimal sample_libs "%PDF" "" _ _ H).
Defined.

Lemma convert_failure_cause_witness :
  snd (convert decimal failing_libs "%PDF" "" "scan.pdf") =
    Throw (mkError "PDF conversion failed: Invalid PDF structure")
  /\ ((toLowerCase (after_last_dot "scan.pdf") ∉ known_extensions)
      /\ mkError "PDF conversion failed: Invalid PDF structure" =
         mkError ("Unsupported file type: " +:+ toLowerCase (after_last_dot "scan.pdf"))
      \/ exists r cause,
           toLowerCase (after_last_dot "scan.pdf") = routine_extension r
           /\ parser_raises failing_libs r "%PDF" cause
           /\ mkError "PDF conversion failed: Invalid PDF structure" =
              mkError (routine_label r +:+ " conversion failed: " +:+ message cause)).
Proof.
  assert (H : snd (convert decimal failing_libs "%PDF" "" "scan.pdf") =
              Throw (mkError "PDF conversion failed: Invalid PDF structure"))
    by reflexivity.
  split; [exact H|].
  exact (convert_failure_cause decimal failing_libs "%PDF" "" "scan.pdf" _ H).
Defined.

Lemma convert_text_unchanged_witness :
  (toLowerCase (after_last_dot "letter.DOCX") = "docx"
   /\ mammoth_extractRawText sample_libs "Dear all" = Ok "Dear all"
   \/ toLowerCase (after_last_dot "letter.DOCX") = "pdf"
      /\ pdf sample_libs "Dear all" = Ok "Dear all")
  /\ snd (convert decimal sample_libs "Dear all" "" "letter.DOCX") = Ok "Dear all".
Proof.
  assert (H : toLowerCase (after_last_dot "letter.DOCX") = "docx"
              /\ mammoth_extractRawText sample_libs "Dear all" = Ok "Dear all"
              \/ toLowerCase (after_last_dot "letter.DOCX") = "pdf"
                 /\ pdf sample_libs "Dear all" = Ok "Dear all")
    by (left; split; reflexivity).
  split; [exact H|].
  exact (convert_text_unchanged decimal sample_libs "Dear all" "" "letter.DOCX"
           "Dear all" H).
Defined.

Lemma api_convert_unsupported_witness :
  let file := mkUpload "PNG" "image/png" "photo.png" in
  (toLowerCase (after_last_dot (file_originalname file)) ∉ known_extensions)
  /\ api_convert decimal sample_libs (Some file) =
       mkResponse 500 (ErrorBody "Unsupported file type: png")
         (Some (mkError "Unsupported file type: png")).
Proof.
  intros file.
  assert (Hk : toLowerCase (after_last_dot (file_originalname file))
               ∉ known_extensions).
  { unfold known_extensions. rewrite !not_elem_of_cons.
    repeat split; try (vm_compute; discriminate). apply not_elem_of_nil. }
  split; [exact Hk|].
  exact (api_convert_unsupported decimal sample_libs file Hk).
Defined.

Lemma api_convert_parser_failure_witness :
  let file := mkUpload "%PDF" "application/pdf" "scan.pdf" in
  toLowerCase (after_last_dot (file_originalname file)) = routine_extension ConvertPdf
  /\ parser_raises failing_libs ConvertPdf (file_buffer file)
       (mkError "Invalid PDF structure")
  /\ status (api_convert decimal failing_libs (Some file)) = 500
  /\ body (api_convert decimal failing_libs (Some file)) =
       ErrorBody "PDF conversion failed: Invalid PDF structure".
Proof.
  intros file.
  assert (He : toLowerCase (after_last_dot (file_originalname file)) =
               routine_extension ConvertPdf) by reflexivity.
  assert (Hp : parser_raises failing_libs ConvertPdf (file_buffer file)
                 (mkError "Invalid PDF structure"))
    by (constructor; reflexivity).
  split; [exact He|]. split; [exact Hp|].
  exact (api_convert_parser_failure decimal failing_libs file ConvertPdf
           (mkError "Invalid PDF structure") He Hp).
Defined.

Lemma verify_succeeds_witness :
  let buffer := "Name,Age,City" +:+ nl +:+ "Bob,25" +:+ nl +:+
                "Alice,30,New York" +:+ nl in
  let records :=
    [CStr "Name"; CStr "Age"; CStr "City"]
    :: [[CStr "Bob"; CStr "25"]]
       ++ [CStr "Alice"; CStr "30"; CStr "New York"] :: [] in
  parse sample_libs buffer = Ok records
  /\ verify decimal sample_libs (Ok buffer) =
       mkRun [ConsoleLog "--- CSV Conversion Result ---";
              ConsoleLog (jsonToMarkdownTable decimal (Some records));
              ConsoleLog "SUCCESS: CSV conversion verified."] None.
Proof.
  intros buffer records.
  assert (Hp : parse sample_libs buffer = Ok records) by reflexivity.
  split; [exact Hp|].
  exact (verify_succeeds decimal sample_libs buffer [[CStr "Bob"; CStr "25"]] [] Hp).
Defined.

Lemma verify_parser_failure_witness :
  parse failing_libs "a,b" = Throw (mkError "Invalid Record Length")
  /\ verify decimal failing_libs (Ok "a,b") =
       mkRun [ConsoleErrorWith "Verification failed:"
                (mkError "CSV conversion failed: Invalid Record Length")]
             (Some 1).
Proof.
  assert (Hp : parse failing_libs "a,b" = Throw (mkError "Invalid Record Length"))
    by reflexivity.
  split; [exact Hp|].
  exact (verify_parser_failure decimal failing_libs "a,b" _ Hp).
Defined.

Lemma api_convert_empty_csv_witness :
  let file := mkUpload (nl +:+ nl) "text/csv" "empty.csv" in
  toLowerCase (after_last_dot (file_originalname file)) = "csv"
  /\ parse sample_libs (file_buffer file) = Ok []
  /\ api_convert decimal sample_libs (Some file) =
       mkResponse 200 (MarkdownBody "") None.
Proof.
  intros file.
  assert (He : toLowerCase (after_last_dot (file_originalname file)) = "csv")
    by reflexivity.
  assert (Hp : parse sample_libs (file_buffer file) = Ok []) by reflexivity.
  split; [exact He|]. split; [exact Hp|].
  exact (api_convert_empty_csv decimal sample_libs file He Hp).
Defined.

Lemma render_ignores_sharing_witness :
  let table := [[CStr "k"; CStr "v"]; [CStr "k"; CStr "v"]; [CNum 1]] in
  rows_at sample_heap 1%positive = Some table
  /\ fst <$> jsonToMarkdownTable_h decimal (Some 1%positive) sample_heap =
     Some (jsonToMarkdownTable decimal (Some table)).
Proof.
  intros table.
  assert (Hr : rows_at sample_heap 1%positive = Some table) by reflexivity.
  split; [exact Hr|].
  exact (render_ignores_sharing decimal sample_heap 1%positive table Hr).
Defined.
